(** * dunosaurs/color: the colour value library [mod.ts], embedded in Rocq

    The library represents a colour as a list of numeric channels, a
    colour-space tag and a transparency, and converts between the spaces
    through RGB.  Every number of the TypeScript source is an IEEE 754
    binary64 value, so the embedding uses the kernel's primitive [float]:
    [+], [-], [*], [/] and the comparisons are the hardware operations the
    JavaScript engine runs, and the remaining built-ins ([Math.round],
    [Math.floor], [%], [&], [Math.max], [Math.min], number printing and
    [parseFloat]) are defined below from the exact value of a float. *)

From Stdlib Require Import ZArith List Bool Ascii String Lia.
From Stdlib Require Import Floats Uint63 DecimalString.
Import ListNotations.

Set Warnings "-inexact-float".

(** ** The built-ins of the language that [mod.ts] relies on *)
Module JS.

Local Open Scope string_scope.
Local Open Scope float_scope.

(** An optional parameter or an out-of-range array read: [None] is
    [undefined]. *)
Definition value := option float.

(** [ToNumber]: [undefined] becomes [NaN]. *)
Definition ToNumber (v : value) : float :=
  match v with Some x => x | None => nan end.

(** [ToBoolean] on a number: [0], [-0] and [NaN] are falsy. *)
Definition truthy (x : float) : bool := negb (is_nan x || PrimFloat.is_zero x).

(** [v || d] where [v] is a number or [undefined]. *)
Definition or_else (v : value) (d : float) : float :=
  match v with
  | Some x => if truthy x then x else d
  | None => d
  end.

(** A finite non-zero [x] is [(-1)^s * M * 2^(-k)] where [frshiftexp]
    gives the exponent [se] and [normfr_mantissa] the 53-bit integer
    mantissa [M] (so [2^52 <= M < 2^53]), and [k = 2154 - se] counts the
    fractional bits: [2154 = shift + prec].  For [k <= 0] the value is an
    integer; for [55 <= k] its magnitude is below [1/4]. *)
Definition frac_bits_bias : int := 2154%uint63.

(** The float whose value is the integer [n] with the sign [s]; a zero
    result keeps the sign. *)
Definition of_int (s : bool) (n : int) : float :=
  if (n =? 0)%uint63 then (if s then neg_zero else zero)
  else if s then - of_uint63 n else of_uint63 n.

(** [Math.round]: the integer nearest to [x], ties towards +infinity,
    that is [floor (x + 1/2)] computed exactly; [NaN], the infinities, the
    zeros and the integers are returned as they are, and a result of zero
    from a negative [x] is [-0]. *)
Definition Math_round (x : float) : float :=
  if is_finite x && negb (PrimFloat.is_zero x) then
    let (f, se) := frshiftexp x in
    if (frac_bits_bias <=? se)%uint63 then x
    else
      let s := x <? 0 in
      let k := (frac_bits_bias - se)%uint63 in
      if (55 <=? k)%uint63 then of_int s 0
      else
        let M := normfr_mantissa f in
        let q := (M >> k)%uint63 in
        let frac := (M - (q << k))%uint63 in
        let half := (1 << (k - 1))%uint63 in
        let up := if s then (half <? frac)%uint63 else (half <=? frac)%uint63 in
        of_int s (if up then q + 1 else q)%uint63
  else x.

(** [Math.floor]: the largest integer not above [x]. *)
Definition Math_floor (x : float) : float :=
  if is_finite x && negb (PrimFloat.is_zero x) then
    let (f, se) := frshiftexp x in
    if (frac_bits_bias <=? se)%uint63 then x
    else
      let s := x <? 0 in
      let k := (frac_bits_bias - se)%uint63 in
      if (55 <=? k)%uint63 then of_int s (if s then 1 else 0)
      else
        let M := normfr_mantissa f in
        let q := (M >> k)%uint63 in
        let frac := (M - (q << k))%uint63 in
        let up := s && negb (frac =? 0)%uint63 in
        of_int s (if up then q + 1 else q)%uint63
  else x.

(** The float [(-1)^s * r * 2^e], for a value that a double holds
    exactly: the mantissa is first shifted to its canonical exponent. *)
Definition of_exact (s : bool) (r : positive) (e : Z) : float :=
  let '(m, e') := shl_align r e (fexp prec emax (Zpos (digits2_pos r) + e)) in
  SF2Prim (S754_finite s m e').

(** [x % y]: the remainder of the truncating division, with the sign of
    [x]; always exact. *)
Definition rem (x y : float) : float :=
  match Prim2SF x, Prim2SF y with
  | S754_nan, _ | _, S754_nan => nan
  | S754_infinity _, _ => nan
  | _, S754_zero _ => nan
  | S754_zero _, _ => x
  | _, S754_infinity _ => x
  | S754_finite sx mx ex, S754_finite _ my ey =>
      let e := Z.min ex ey in
      match ((Zpos mx * 2 ^ (ex - e)) mod (Zpos my * 2 ^ (ey - e)))%Z with
      | Zpos r => of_exact sx r e
      | _ => if sx then neg_zero else zero
      end
  end.

(** [ToInt32]: truncate, then wrap into [-2^31, 2^31); [NaN] and the
    infinities give [0]. *)
Definition ToInt32 (x : float) : Z :=
  match Prim2SF x with
  | S754_finite s m e =>
      let t := if (0 <=? e)%Z then (Zpos m * 2 ^ e)%Z else (Zpos m / 2 ^ (- e))%Z in
      let k := (cond_Zopp s t mod 2 ^ 32)%Z in
      if (2 ^ 31 <=? k)%Z then (k - 2 ^ 32)%Z else k
  | _ => 0%Z
  end.

(** [x & y] on numbers. *)
Definition bitand (x y : float) : Z := Z.land (ToInt32 x) (ToInt32 y).

(** [Math.max] and [Math.min] of two numbers: [NaN] is contagious and
    [+0] is larger than [-0]. *)
Definition max2 (a b : float) : float :=
  if is_nan a || is_nan b then nan
  else if a <? b then b
  else if b <? a then a
  else if get_sign a then b else a.

Definition min2 (a b : float) : float :=
  if is_nan a || is_nan b then nan
  else if a <? b then a
  else if b <? a then b
  else if get_sign a then a else b.

Definition Math_max (a b c : float) : float := max2 (max2 a b) c.
Definition Math_min (a b c : float) : float := min2 (min2 a b) c.

(** *** Numbers and strings *)

(** The double nearest to the rational [n / d] ([0 <= n], [0 < d]), ties
    to even: the quotient is taken with at least 66 significant bits and not
    above bit -1080, a sticky bit records a non-zero remainder, and
    [binary_normalize] rounds once. *)
Definition round_ratio (n d : Z) : float :=
  if (n =? 0)%Z then zero
  else
    let e := Z.min (-1080) (Z.log2 n - Z.log2 d - 66) in
    let num := Z.shiftl n (- e) in
    let q := (num / d)%Z in
    let sticky := if (num mod d =? 0)%Z then 0%Z else 1%Z in
    SF2Prim (binary_normalize prec emax (2 * q + sticky) (e - 1) false).

(** [n * 10^k / d] as a double, for an integer [k] of either sign. *)
Definition round_dec (n d k : Z) : float :=
  if (0 <=? k)%Z then round_ratio (n * 10 ^ k) d else round_ratio n (d * 10 ^ (- k)).

(** The decimal digits of a natural number. *)
Definition digits (n : Z) : string := NilZero.string_of_uint (N.to_uint (Z.to_N n)).

Fixpoint zeros (n : nat) : string :=
  match n with O => EmptyString | S k => String "0" (zeros k) end.

(** The position [n] of the decimal point of [m * 2^e]:
    [10^(n-1) <= m * 2^e < 10^n], found from a binary estimate. *)
Definition below_pow10 (m e n : Z) : bool :=
  (* m * 2^e < 10^n *)
  let l := (m * 2 ^ Z.max e 0 * 10 ^ Z.max (- n) 0)%Z in
  let r := (10 ^ Z.max n 0 * 2 ^ Z.max (- e) 0)%Z in
  (l <? r)%Z.

Fixpoint point_from (fuel : nat) (m e n : Z) : Z :=
  match fuel with
  | O => n
  | S f =>
      if below_pow10 m e (n - 1) then point_from f m e (n - 1)
      else if below_pow10 m e n then n
      else point_from f m e (n + 1)
  end.

Definition point (m e : Z) : Z :=
  point_from 8 m e ((Z.log2 m + e) * 30103 / 100000 + 1).

(** The shortest digit string: the least [k] with a [k]-digit integer [s]
    such that [s * 10^(n-k)] rounds to [x], and among two such [s] the one
    nearer to [x] (the even one on a tie). *)
Fixpoint shortest (fuel : nat) (x : float) (m e n k : Z) : Z * Z :=
  match fuel with
  | O => (0%Z, k)
  | S f =>
      (* lo = floor (m * 2^e / 10^(n-k)) *)
      let num := (m * 2 ^ Z.max e 0 * 10 ^ Z.max (k - n) 0)%Z in
      let den := (2 ^ Z.max (- e) 0 * 10 ^ Z.max (n - k) 0)%Z in
      let lo := (num / den)%Z in
      let hi := (lo + 1)%Z in
      let ok_lo := (0 <? lo)%Z && (round_dec lo 1 (n - k) =? x) in
      let ok_hi := round_dec hi 1 (n - k) =? x in
      if ok_lo && ok_hi then
        match (2 * (num - lo * den) ?= den)%Z with
        | Lt => (lo, k)
        | Gt => (hi, k)
        | Eq => if Z.even lo then (lo, k) else (hi, k)
        end
      else if ok_lo then (lo, k)
      else if ok_hi then (hi, k)
      else shortest f x m e n (k + 1)
  end.

(** [Number::toString] for a finite positive number. *)
Definition positive_to_string (x : float) : string :=
  match Prim2SF x with
  | S754_finite _ m e =>
      let n := point (Zpos m) e in
      let '(s, k) := shortest 20 x (Zpos m) e n 1 in
      (* [hi] may be [10^k]: the single digit 1, one place higher *)
      let '(s, k, n) := if (s =? 10 ^ k)%Z then (1, 1, n + 1)%Z else (s, k, n) in
      let ds := digits s in
      if (k <=? n)%Z && (n <=? 21)%Z then ds ++ zeros (Z.to_nat (n - k))
      else if (0 <? n)%Z && (n <=? 21)%Z then
        substring 0 (Z.to_nat n) ds ++ "." ++ substring (Z.to_nat n) (Z.to_nat (k - n)) ds
      else if (-6 <? n)%Z && (n <=? 0)%Z then
        "0." ++ zeros (Z.to_nat (- n)) ++ ds
      else
        let ex := (n - 1)%Z in
        let es := (if (ex <? 0)%Z then "-" else "+") ++ digits (Z.abs ex) in
        if (k =? 1)%Z then ds ++ "e" ++ es
        else substring 0 1 ds ++ "." ++ substring 1 (Z.to_nat (k - 1)) ds ++ "e" ++ es
  | _ => "0"
  end.

(** [Number::toString], radix 10: what a template literal prints for
    a number. *)
Definition number_to_string (x : float) : string :=
  if is_nan x then "NaN"
  else if PrimFloat.is_zero x then "0"
  else if x <? 0 then
    if is_infinity x then "-Infinity" else "-" ++ positive_to_string (- x)
  else if is_infinity x then "Infinity"
  else positive_to_string x.

(** [`${v}`] for a number or [undefined]. *)
Definition show (v : value) : string :=
  match v with Some x => number_to_string x | None => "undefined" end.

(** Strings are sequences of code units below 256.  On that range the
    white space of [\s], [trim] and [parseFloat] is TAB, LF, VT, FF, CR,
    SPACE and NBSP, and the line terminators that [.] refuses are LF and
    CR. *)
Definition is_space (c : ascii) : bool :=
  let n := nat_of_ascii c in
  ((9 <=? n)%nat && (n <=? 13)%nat) || (n =? 32)%nat || (n =? 160)%nat.

Definition is_line_terminator (c : ascii) : bool :=
  let n := nat_of_ascii c in (n =? 10)%nat || (n =? 13)%nat.

Definition is_digit (c : ascii) : bool :=
  let n := nat_of_ascii c in (48 <=? n)%nat && (n <=? 57)%nat.

Definition digit_val (c : ascii) : Z := Z.of_nat (nat_of_ascii c) - 48.

(** The value of a hexadecimal digit of either case. *)
Definition hex_val (c : ascii) : option Z :=
  let n := nat_of_ascii c in
  if (48 <=? n)%nat && (n <=? 57)%nat then Some (Z.of_nat n - 48)%Z
  else if (97 <=? n)%nat && (n <=? 102)%nat then Some (Z.of_nat n - 87)%Z
  else if (65 <=? n)%nat && (n <=? 70)%nat then Some (Z.of_nat n - 55)%Z
  else None.

(** ASCII case folding, as the [i] flag compares characters. *)
Definition fold_case (c : ascii) : ascii :=
  let n := nat_of_ascii c in
  if (97 <=? n)%nat && (n <=? 122)%nat then ascii_of_nat (n - 32) else c.

Fixpoint trim_start (s : string) : string :=
  match s with
  | String c s' => if is_space c then trim_start s' else s
  | EmptyString => s
  end.

Fixpoint rev_string (s acc : string) : string :=
  match s with
  | String c s' => rev_string s' (String c acc)
  | EmptyString => acc
  end.

(** [s.trim()]. *)
Definition trim (s : string) : string :=
  rev_string (trim_start (rev_string (trim_start s) "")) "".

(** [s.includes(sub)]. *)
Fixpoint includes (sub s : string) : bool :=
  prefix sub s ||
  match s with
  | String _ s' => includes sub s'
  | EmptyString => false
  end.

(** The longest run of decimal digits at the front of [s]: its value, its
    length, and the rest. *)
Fixpoint take_digits (s : string) (acc : Z) (len : nat) : Z * nat * string :=
  match s with
  | String c s' =>
      if is_digit c then take_digits s' (10 * acc + digit_val c) (S len)
      else (acc, len, s)
  | EmptyString => (acc, len, s)
  end.

(** The exponent part [e], [e+] or [e-] followed by at least one digit;
    [0] when there is none. *)
Definition take_exponent (s : string) : Z :=
  match s with
  | String c s' =>
      if Ascii.eqb c "e" || Ascii.eqb c "E" then
        let '(neg, s'') :=
          match s' with
          | String "-" t => (true, t)
          | String "+" t => (false, t)
          | _ => (false, s')
          end in
        let '(v, len, _) := take_digits s'' 0 0 in
        if (len =? 0)%nat then 0%Z else if neg then (- v)%Z else v
      else 0%Z
  | EmptyString => 0%Z
  end.

(** [Number.parseFloat]: leading white space is skipped, the longest
    prefix that is a decimal literal is read and rounded to the nearest
    double; [NaN] when there is no such prefix. *)
Definition parseFloat (s : string) : float :=
  let s := trim_start s in
  let '(neg, s) :=
    match s with
    | String "-" t => (true, t)
    | String "+" t => (false, t)
    | _ => (false, s)
    end in
  let sign (x : float) := if neg then - x else x in
  if prefix "Infinity" s then sign infinity
  else
    let '(int_part, int_len, rest) := take_digits s 0 0 in
    let '(mant, frac_len, rest) :=
      match rest with
      | String "." t =>
          let '(m, total, r) := take_digits t int_part int_len in
          (m, (total - int_len)%nat, r)
      | _ => (int_part, O, rest)
      end in
    if (int_len + frac_len =? 0)%nat then nan
    else sign (round_dec mant 1 (take_exponent rest - Z.of_nat frac_len)).

(** [Number.parseInt(s, 16)]: white space, a sign and a [0x] prefix are
    skipped and the longest run of hexadecimal digits is read; [NaN] when
    there is none. *)
Fixpoint take_hex (s : string) (acc : Z) (len : nat) : Z * nat :=
  match s with
  | String c s' =>
      match hex_val c with
      | Some d => take_hex s' (16 * acc + d) (S len)
      | None => (acc, len)
      end
  | EmptyString => (acc, len)
  end.

Definition parseInt16 (s : string) : float :=
  let s := trim_start s in
  let '(neg, s) :=
    match s with
    | String "-" t => (true, t)
    | String "+" t => (false, t)
    | _ => (false, s)
    end in
  let s :=
    match s with
    | String "0" (String x t) => if Ascii.eqb (fold_case x) "X" then t else s
    | _ => s
    end in
  let '(v, len) := take_hex s 0 0 in
  if (len =? 0)%nat then nan
  else if neg then - round_ratio v 1 else round_ratio v 1.

(** [Math.PI]. *)
Definition Math_PI : float := 0x1.921fb54442d18p+1.

(** *** Regular expressions

    The constructs the four patterns of [mod.ts] use.  A character
    test stands for a literal, a class, [.] or [\s]; the only starred
    expression of the source is [.*], a greedy star over one character
    test. *)
Inductive regex : Type :=
  | Rchar (p : ascii -> bool)
  | Rseq (r1 r2 : regex)
  | Ralt (r1 r2 : regex)
  | Ropt (r : regex)
  | Rstar (p : ascii -> bool)
  | Rgroup (i : nat) (r : regex)
  | Rbol
  | Reol.

(** The state of a match: the offset into the input, what is left of it,
    and the captures made so far. *)
Record mstate : Type := mkState {
  offset : nat;
  rest : string;
  caps : list (nat * string)
}.

Section Matcher.
Variable A : Type.

(** Greedy [p*]: take as many characters as [p] allows, giving one back
    at a time while the continuation fails. *)
Fixpoint star (p : ascii -> bool) (off : nat) (s : string)
    (k : nat -> string -> option A) : option A :=
  match s with
  | String c s' =>
      if p c then
        match star p (S off) s' k with
        | Some r => Some r
        | None => k off s
        end
      else k off s
  | EmptyString => k off s
  end.

(** The backtracking matcher, in continuation-passing style. *)
Fixpoint run (r : regex) (st : mstate) (k : mstate -> option A) : option A :=
  match r with
  | Rchar p =>
      match rest st with
      | String c s' =>
          if p c then k (mkState (S (offset st)) s' (caps st)) else None
      | EmptyString => None
      end
  | Rseq r1 r2 => run r1 st (fun st' => run r2 st' k)
  | Ralt r1 r2 =>
      match run r1 st k with
      | Some a => Some a
      | None => run r2 st k
      end
  | Ropt r1 =>
      match run r1 st k with
      | Some a => Some a
      | None => k st
      end
  | Rstar p =>
      star p (offset st) (rest st) (fun off s => k (mkState off s (caps st)))
  | Rgroup i r1 =>
      run r1 st (fun st' =>
        let text := substring 0 (offset st' - offset st) (rest st) in
        k (mkState (offset st') (rest st') ((i, text) :: caps st')))
  | Rbol => if (offset st =? 0)%nat then k st else None
  | Reol => match rest st with EmptyString => k st | _ => None end
  end.
End Matcher.

(** [input.match(r)] for a pattern without the [g] flag: the first offset
    at which [r] matches, tried from the left; the result is the list of
    captures, [None] for [null]. *)
Fixpoint match_from (r : regex) (off : nat) (s : string) : option (list (nat * string)) :=
  match run _ r (mkState off s []) (fun st => Some (caps st)) with
  | Some c => Some c
  | None =>
      match s with
      | String _ s' => match_from r (S off) s'
      | EmptyString => None
      end
  end.

Definition regex_match (r : regex) (input : string) : option (list (nat * string)) :=
  match_from r 0 input.

(** The text of capture [i]: [None] for [undefined]. *)
Fixpoint capture (i : nat) (c : list (nat * string)) : option string :=
  match c with
  | (j, t) :: c' => if (i =? j)%nat then Some t else capture i c'
  | [] => None
  end.

(** Pattern syntax. *)
Definition lit (c : ascii) : regex := Rchar (Ascii.eqb c).
Definition lit_i (c : ascii) : regex :=
  Rchar (fun x => Ascii.eqb (fold_case x) (fold_case c)).
Definition any_char : regex := Rchar (fun c => negb (is_line_terminator c)).
Fixpoint word_i (s : string) : regex :=
  match s with
  | String c EmptyString => lit_i c
  | String c s' => Rseq (lit_i c) (word_i s')
  | EmptyString => Ropt (Rchar (fun _ => false))
  end.
Fixpoint repeat_re (n : nat) (r : regex) : regex :=
  match n with
  | O => Ropt (Rchar (fun _ => false))
  | 1%nat => r
  | S k => Rseq r (repeat_re k r)
  end.

(** [[0-9a-f]] under the [i] flag. *)
Definition is_hex_digit (c : ascii) : bool :=
  match hex_val c with Some _ => true | None => false end.

Definition hex_digit_i : regex := Rchar is_hex_digit.

(** [s.split(sep)] where every match of [sep] is one character passing
    [p]. *)
Fixpoint split_on (p : ascii -> bool) (s : string) (cur : string) : list string :=
  match s with
  | String c s' =>
      if p c then rev_string cur "" :: split_on p s' ""
      else split_on p s' (String c cur)
  | EmptyString => [rev_string cur ""]
  end.

(** A non-empty string is truthy. *)
Definition nonempty (s : string) : bool :=
  match s with EmptyString => false | _ => true end.

End JS.

(** ** The colour value *)

(** [COLOR_TYPES]: the nine space tags. *)
Inductive ColorTypes : Set :=
  | t_rgb | t_rgba | t_hsl | t_hsla | t_hsv | t_hsva | t_hwb | t_hwba | t_cmyk.

Definition COLOR_TYPES : list ColorTypes :=
  [t_rgb; t_rgba; t_hsl; t_hsla; t_hsv; t_hsva; t_hwb; t_hwba; t_cmyk].


(** [class Color]: the three fields of an instance. *)
Record Color : Set := mkColor {
  channels : list float;
  type : ColorTypes;
  transparency : float
}.

Module Color.

Import JS.
Local Open Scope string_scope.
Local Open Scope float_scope.

(** [new Color(channels, type, alpha?)]: [this.transparency = alpha || 1]. *)
Definition new (chs : list float) (ty : ColorTypes) (alpha : value) : Color :=
  mkColor chs ty (or_else alpha 1).

(** [this.channels[i]] where a number is expected. *)
Definition ch (c : Color) (i : nat) : float := ToNumber (nth_error (channels c) i).

(** *** Static constructors *)

Definition rgb (r g b : float) : Color :=
  new [Math_round r; Math_round g; Math_round b] t_rgb None.

Definition rgba (r g b : float) (a : value) : Color :=
  new [Math_round r; Math_round g; Math_round b] t_rgba a.

Definition hsl (h s l : float) : Color :=
  new [Math_round h; Math_round s; Math_round l] t_hsl None.

Definition hsla (h s l : float) (a : value) : Color :=
  new [Math_round h; Math_round s; Math_round l] t_hsla a.

Definition hsv (h s v : float) : Color :=
  new [Math_round h; Math_round s; Math_round v] t_hsv None.

Definition hsva (h s v : float) (a : value) : Color :=
  new [Math_round h; Math_round s; Math_round v] t_hsva a.

Definition hwb (h w b : float) : Color :=
  if 100 <? w + b then
    new [Math_round h; Math_round (w / (w + b) * 100); Math_round (b / (w + b) * 100)]
        t_hwb None
  else new [Math_round h; Math_round w; Math_round b] t_hwb None.

Definition hwba (h w b : float) (a : value) : Color :=
  if 100 <? w + b then
    new [Math_round h; Math_round (w / (w + b) * 100); Math_round (b / (w + b) * 100)]
        t_hwba a
  else new [Math_round h; Math_round w; Math_round b] t_hwba a.

Definition cmyk (c m y k : float) : Color :=
  new [Math_round c; Math_round m; Math_round y; Math_round k] t_cmyk None.

(** *** Conversions (instance methods) *)
Module prototype.

(** The local helper [hue2rgb] of the hsl case. *)
Definition hue2rgb (p q t : float) : float :=
  let t := if t <? 0 then t + 1 else t in
  let t := if 1 <? t then t - 1 else t in
  if t <? 1 / 6 then p + (q - p) * 6 * t
  else if t <? 1 / 2 then q
  else if t <? 2 / 3 then p + (q - p) * (2 / 3 - t) * 6
  else p.

(** [rgb()]. *)
Definition rgb (this : Color) : Color :=
  match type this with
  | t_rgba | t_rgb => Color.rgb (ch this 0) (ch this 1) (ch this 2)
  | t_hsla | t_hsl =>
      let h := ch this 0 / 360 in
      let s := ch this 1 / 100 in
      let l := ch this 2 / 100 in
      let '(r, g, b) :=
        if s =? 0 then (l, l, l)
        else
          let q := if l <? 0.5 then l * (1 + s) else l + s - l * s in
          let p := 2 * l - q in
          (hue2rgb p q (h + 1 / 3), hue2rgb p q h, hue2rgb p q (h - 1 / 3)) in
      Color.rgb (r * 255) (g * 255) (b * 255)
  | t_hsva | t_hsv =>
      let h := ch this 0 / 360 in
      let s := ch this 1 / 100 in
      let v := ch this 2 / 100 in
      let i := Math_floor (h * 6) in
      let f := h * 6 - i in
      let p := v * (1 - s) in
      let q := v * (1 - f * s) in
      let t := v * (1 - (1 - f) * s) in
      let m := rem i 6 in
      let '(r, g, b) :=
        if m =? 0 then (v, t, p)
        else if m =? 1 then (q, v, p)
        else if m =? 2 then (p, v, t)
        else if m =? 3 then (p, q, v)
        else if m =? 4 then (t, p, v)
        else if m =? 5 then (v, p, q)
        else (0, 0, 0) in
      Color.rgb r g b
  | t_hwba | t_hwb =>
      let h := ch this 0 / 360 in
      let wh := ch this 1 / 100 in
      let bl := ch this 2 / 100 in
      let ratio := wh + bl in
      let '(wh, bl) := if 1 <? ratio then (wh / ratio, bl / ratio) else (wh, bl) in
      let i := Math_floor (6 * h) in
      let v := 1 - bl in
      let f := 6 * h - i in
      let f := if negb (bitand i 1 =? 0)%Z then 1 - f else f in
      let n := wh + f * (v - wh) in
      let '(r, g, b) :=
        if i =? 1 then (n, v, wh)
        else if i =? 2 then (wh, v, n)
        else if i =? 3 then (wh, n, v)
        else if i =? 4 then (n, wh, v)
        else if i =? 5 then (v, wh, n)
        else (v, n, wh) in
      Color.rgb r g b
  | t_cmyk =>
      let c := ch this 0 / 360 in
      let m := ch this 1 / 100 in
      let y := ch this 2 / 100 in
      let k := ch this 2 / 100 in
      let r := 255 * (1 - c) * (1 - k) in
      let g := 255 * (1 - m) * (1 - k) in
      let b := 255 * (1 - y) * (1 - k) in
      Color.rgb r g b
  end.

(** [rgba()]. *)
Definition rgba (this : Color) : Color :=
  match type this with
  | t_rgba => Color.rgba (ch this 0) (ch this 1) (ch this 2) (Some (transparency this))
  | _ =>
      let rgb := rgb this in
      Color.rgba (ch rgb 0) (ch rgb 1) (ch rgb 2) (Some (transparency this))
  end.

(** [hsl()]. *)
Definition hsl (this : Color) : Color :=
  match type this with
  | t_hsl => Color.hsl (ch this 0) (ch this 1) (ch this 2)
  | _ =>
      let rgb := rgba this in
      let r := ch rgb 0 / 255 in
      let g := ch rgb 1 / 255 in
      let b := ch rgb 2 / 255 in
      let max := Math_max r g b in
      let min := Math_min r g b in
      let l := (max + min) / 2 in
      let '(h, s) :=
        if max =? min then (0, 0)
        else
          let d := max - min in
          let s := if 0.5 <? l then d / (2 - max - min) else d / (max + min) in
          let h := (max + min) / 2 in
          let h :=
            if max =? r then (g - b) / d + (if g <? b then 6 else 0)
            else if max =? g then (b - r) / d + 2
            else if max =? b then (r - g) / d + 4
            else h in
          (h * 60, s) in
      Color.hsl h (s * 100) (l * 100)
  end.

(** [hsla()]. *)
Definition hsla (this : Color) : Color :=
  match type this with
  | t_hsla => Color.hsla (ch this 0) (ch this 1) (ch this 2) (Some (transparency this))
  | _ =>
      let hsl := hsl this in
      Color.hsla (ch hsl 0) (ch hsl 1) (ch hsl 2) (Some (transparency this))
  end.

(** [hsv()]: the [switch (max)] compares with [===], in the order
    [min], [r], [g], [b]. *)
Definition hsv (this : Color) : Color :=
  match type this with
  | t_hsv => Color.hsv (ch this 0) (ch this 1) (ch this 2)
  | _ =>
      let rgb := rgba this in
      let r := ch rgb 0 in
      let g := ch rgb 1 in
      let b := ch rgb 2 in
      let max := Math_max r g b in
      let min := Math_min r g b in
      let d := max - min in
      let s := if max =? 0 then 0 else d / max in
      let v := max / 255 in
      let h :=
        if max =? min then 0
        else if max =? r then ((g - b) + d * (if g <? b then 6 else 0)) / (6 * d)
        else if max =? g then ((b - r) + d * 2) / (6 * d)
        else if max =? b then ((r - g) + d * 4) / (6 * d)
        else 0 in
      Color.hsv (h * 360) (s * 100) (v * 100)
  end.

(** [hsva()]. *)
Definition hsva (this : Color) : Color :=
  match type this with
  | t_hsva => Color.hsva (ch this 0) (ch this 1) (ch this 2) (Some (transparency this))
  | _ =>
      let hsv := hsv this in
      Color.hsva (ch hsv 0) (ch hsv 1) (ch hsv 2) (Some (transparency this))
  end.

(** [hwb()]. *)
Definition hwb (this : Color) : Color :=
  let hsv := hsv this in
  let h := ch hsv 0 / 360 in
  let s := ch hsv 1 / 100 in
  let v := ch hsv 2 / 100 in
  match type this with
  | t_hwb => Color.hwb (ch this 0) (ch this 1) (ch this 2)
  | _ => Color.hwb (h * 360) (((1 - s) * v) * 100) ((1 - v) * 100)
  end.

(** [hwba()]. *)
Definition hwba (this : Color) : Color :=
  match type this with
  | t_hwba => Color.hwba (ch this 0) (ch this 1) (ch this 2) (Some (transparency this))
  | _ =>
      let hwb := hwb this in
      Color.hwba (ch hwb 0) (ch hwb 1) (ch hwb 2) (Some (transparency this))
  end.

(** [x || 0] on a number. *)
Definition or_zero (x : float) : float := or_else (Some x) 0.

(** [cmyk()]. *)
Definition cmyk (this : Color) : Color :=
  match type this with
  | t_cmyk => Color.cmyk (ch this 0) (ch this 1) (ch this 2) (ch this 3)
  | _ =>
      let rgb := rgba this in
      let r := ch rgb 0 / 255 in
      let g := ch rgb 1 / 255 in
      let b := ch rgb 2 / 255 in
      let k := Math_min (1 - r) (1 - g) (1 - b) in
      let c := or_zero ((1 - r - k) / (1 - k)) in
      let m := or_zero ((1 - g - k) / (1 - k)) in
      let y := or_zero ((1 - b - k) / (1 - k)) in
      Color.cmyk (c * 100) (m * 100) (y * 100) (k * 100)
  end.

(** [toType(colorType)]. *)
Definition toType (this : Color) (colorType : ColorTypes) : Color :=
  match colorType with
  | t_rgb => rgb this
  | t_rgba => rgba this
  | t_hsl => hsl this
  | t_hsla => hsla this
  | t_hsv => hsv this
  | t_hsva => hsva this
  | t_hwb => hwb this
  | t_hwba => hwba this
  | t_cmyk => cmyk this
  end.

(** [toTransparent(type)]. *)
Definition toTransparent (this : Color) (ty : ColorTypes) : Color :=
  match ty with
  | t_cmyk => toType this t_cmyk
  | t_hsla | t_hsl => toType this t_hsla
  | t_hsva | t_hsv => toType this t_hsva
  | t_hwba | t_hwb => toType this t_hwba
  | t_rgba | t_rgb => toType this t_rgba
  end.

(** *** Getters *)

Definition red (this : Color) : float := ch (rgb this) 0.
Definition green (this : Color) : float := ch (rgb this) 1.
Definition blue (this : Color) : float := ch (rgb this) 2.
Definition alpha (this : Color) : float := transparency this.
Definition hue (this : Color) : float := ch (hsl this) 0.
Definition saturation (this : Color) : float := ch (hsl this) 1.
Definition lightness (this : Color) : float := ch (hsl this) 2.
Definition value (this : Color) : float := ch (hsv this) 2.
Definition whiteness (this : Color) : float := ch (hwb this) 1.
Definition blackness (this : Color) : float := ch (hwb this) 2.
Definition cyan (this : Color) : float := ch (cmyk this) 0.
Definition magenta (this : Color) : float := ch (cmyk this) 1.
Definition yellow (this : Color) : float := ch (cmyk this) 2.
Definition black (this : Color) : float := ch (cmyk this) 3.

(** *** Operations *)


Definition setGreen (this : Color) (v : float) : Color :=
  let rgb := rgb this in
  toType (Color.rgb (ch rgb 0) v (ch rgb 2)) (type this).


Definition setAlpha (this : Color) (v : float) : Color :=
  let rgba := rgba this in
  toTransparent (Color.rgba (ch rgba 0) (ch rgba 1) (ch rgba 2) (Some v)) (type this).












Definition lighten (this : Color) (factor : float) : Color :=
  let hsl := hsl this in
  toType (Color.hsl (ch hsl 0) (ch hsl 1) (ch hsl 2 * (1 + factor))) (type this).




Definition grayscale (this : Color) : Color :=
  let rgb := rgb this in
  let gray := (ch rgb 0 + ch rgb 1 + ch rgb 2) / 3 in
  Color.rgb gray gray gray.

Definition fade (this : Color) (factor : float) : Color :=
  let rgba := rgba this in
  toTransparent
    (Color.rgba (ch rgba 0) (ch rgba 1) (ch rgba 2)
       (Some (transparency this * (1 - factor))))
    (type this).

Definition opaquer (this : Color) (factor : float) : Color :=
  let rgba := rgba this in
  toTransparent
    (Color.rgba (ch rgba 0) (ch rgba 1) (ch rgba 2)
       (Some (min2 (transparency this * (1 + factor)) 1)))
    (type this).

(** The loop [while (hue < 0) hue += 360] of [rotate].  Each unit of
    fuel pays for one test of the condition; [None] when the fuel runs out
    before the test fails. *)
Fixpoint rotate_while (fuel : nat) (hue : float) : option float :=
  match fuel with
  | O => None
  | S fuel' => if hue <? 0 then rotate_while fuel' (hue + 360) else Some hue
  end.

(** [rotate(value)]. *)
Definition rotate (fuel : nat) (this : Color) (v : float) : option Color :=
  let hsl := hsl this in
  match rotate_while fuel (ch hsl 0 + v) with
  | None => None
  | Some hue =>
      let hue := rem hue 360 in
      Some (toType (Color.hsl hue (ch hsl 1) (ch hsl 2)) (type this))
  end.

(** [mix(mixColor, weight = 0.5)]. *)
Definition mix (this : Color) (mixColor : Color) (weight : JS.value) : Color :=
  let weight := match weight with Some w => w | None => 0.5 end in
  let color1 := rgb mixColor in
  let color2 := rgb this in
  let p := weight in
  let w := 2 * p - 1 in
  let a := alpha color1 - alpha color2 in
  let w1 := ((if w * a =? -1 then w else (w + a) / (1 + w * a)) + 1) / 2 in
  let w2 := 1 - w1 in
  let mixedColor :=
    Color.rgba (w1 * red color1 + w2 * red color2)
               (w1 * green color1 + w2 * green color2)
               (w1 * blue color1 + w2 * blue color2)
               (Some (alpha color1 * p + alpha color2 * (1 - p))) in
  toType mixedColor (type this).

(** [string()]: the CSS text of a colour. *)
Definition string (this : Color) : String.string :=
  let c (i : nat) := show (nth_error (channels this) i) in
  let a := number_to_string (transparency this) in
  match type this with
  | t_cmyk => "cmyk(" ++ c 0%nat ++ "%, " ++ c 1%nat ++ "%, " ++ c 2%nat ++ "%, " ++ c 3%nat ++ "%)"
  | t_hsl => "hsl(" ++ c 0%nat ++ ", " ++ c 1%nat ++ "%, " ++ c 2%nat ++ "%)"
  | t_hsla => "hsla(" ++ c 0%nat ++ ", " ++ c 1%nat ++ "%, " ++ c 2%nat ++ ", " ++ a ++ ")"
  | t_hsv => "hsv(" ++ c 0%nat ++ ", " ++ c 1%nat ++ "%, " ++ c 2%nat ++ "%)"
  | t_hsva => "hsva(" ++ c 0%nat ++ ", " ++ c 1%nat ++ "%, " ++ c 2%nat ++ "%, " ++ a ++ ")"
  | t_hwb => "hwb(" ++ c 0%nat ++ ", " ++ c 1%nat ++ "%, " ++ c 2%nat ++ "%)"
  | t_hwba => "hwba(" ++ c 0%nat ++ ", " ++ c 1%nat ++ "%, " ++ c 2%nat ++ "%, " ++ a ++ ")"
  | t_rgb => "rgb(" ++ c 0%nat ++ ", " ++ c 1%nat ++ ", " ++ c 2%nat ++ ")"
  | t_rgba => "rgba(" ++ c 0%nat ++ ", " ++ c 1%nat ++ ", " ++ c 2%nat ++ ", " ++ a ++ ")"
  end.

End prototype.

(** *** The string parser *)

(** The outcome of a call that may throw. *)
Inductive result : Set :=
  | Ok (c : Color)
  | Error (message : String.string).

(** The text of a space tag, as [COLOR_TYPES] spells it. *)
Definition type_name (t : ColorTypes) : String.string :=
  match t with
  | t_rgb => "rgb" | t_rgba => "rgba" | t_hsl => "hsl" | t_hsla => "hsla"
  | t_hsv => "hsv" | t_hsva => "hsva" | t_hwb => "hwb" | t_hwba => "hwba"
  | t_cmyk => "cmyk"
  end.

(** [isColorType(type)], returning the tag that [COLOR_TYPES.includes]
    found: the comparison is exact. *)
Definition isColorType (ty : String.string) : option ColorTypes :=
  find (fun t => String.eqb (type_name t) ty) COLOR_TYPES.

(** [parseNumber]. *)
Definition parseNumber (num : String.string) : float :=
  let float := parseFloat num in
  let factor :=
    if includes "rad" num then 360 / (2 * Math_PI)
    else if includes "turn" num then 360
    else 1 in
  float * factor.

(** [/^#([0-9a-f]{3})$/i] and [/^#([0-9a-f]{6})$/i]. *)
Definition re_hex (n : nat) : regex :=
  Rseq Rbol (Rseq (lit "#") (Rseq (Rgroup 1 (repeat_re n hex_digit_i)) Reol)).

(** The functional pattern, with the [i] flag: anchored at the start, the
    named group [type] (group 1) is one of [rgba?], [hsla?], [hsva?],
    [hwba?], [cmyk]; then an opening parenthesis, the named group [args]
    (group 2), a greedy star over any character but a line terminator, and a
    closing parenthesis.  There is no anchor at the end. *)
Definition re_functional : regex :=
  let with_a (w : String.string) := Rseq (word_i w) (Ropt (lit_i "a")) in
  Rseq Rbol
    (Rseq (Rgroup 1 (Ralt (with_a "rgb") (Ralt (with_a "hsl")
                       (Ralt (with_a "hsv") (Ralt (with_a "hwb") (word_i "cmyk"))))))
       (Rseq (lit "(") (Rseq (Rgroup 2 (Rstar (fun c => negb (is_line_terminator c))))
          (lit ")")))).

(** [/,|\//i]. *)
Definition re_comma_or_slash : regex := Ralt (lit ",") (lit "/").

(** The separator [/\s|,/] of [split]: one white-space character or one
    comma. *)
Definition is_separator (c : ascii) : bool := is_space c || Ascii.eqb c ",".

(** The chain [args.split(/\s|,/).map(trim).filter(...)]. *)
Definition tokens (args : String.string) : list String.string :=
  filter (fun arg => nonempty arg &&
                     match regex_match re_comma_or_slash arg with
                     | Some _ => false
                     | None => true
                     end)
         (map trim (split_on is_separator args "")).

(** [Color[type](...channels)]: a missing fourth argument is
    [undefined]. *)
Definition construct (t : ColorTypes) (channels : list float) : Color :=
  let n (i : nat) := ToNumber (nth_error channels i) in
  let a := nth_error channels 3 in
  match t with
  | t_rgb => rgb (n 0%nat) (n 1%nat) (n 2%nat)
  | t_rgba => rgba (n 0%nat) (n 1%nat) (n 2%nat) a
  | t_hsl => hsl (n 0%nat) (n 1%nat) (n 2%nat)
  | t_hsla => hsla (n 0%nat) (n 1%nat) (n 2%nat) a
  | t_hsv => hsv (n 0%nat) (n 1%nat) (n 2%nat)
  | t_hsva => hsva (n 0%nat) (n 1%nat) (n 2%nat) a
  | t_hwb => hwb (n 0%nat) (n 1%nat) (n 2%nat)
  | t_hwba => hwba (n 0%nat) (n 1%nat) (n 2%nat) a
  | t_cmyk => cmyk (n 0%nat) (n 1%nat) (n 2%nat) (n 3%nat)
  end.

(** The first capture of a match, when it is a non-empty string. *)
Definition first_group (r : regex) (input : String.string) : option String.string :=
  match regex_match r input with
  | Some c =>
      match capture 1 c with
      | Some t => if nonempty t then Some t else None
      | None => None
      end
  | None => None
  end.

(** [Color.string(input)]. *)
Definition string (input : String.string) : result :=
  match first_group (re_hex 3) input with
  | Some threeDigitHex =>
      Ok (new [parseInt16 (substring 0 1 threeDigitHex) * 17;
               parseInt16 (substring 1 1 threeDigitHex) * 17;
               parseInt16 (substring 2 1 threeDigitHex) * 17] t_rgb None)
  | None =>
  match first_group (re_hex 6) input with
  | Some sixDigitHex =>
      Ok (new [parseInt16 (substring 0 2 sixDigitHex);
               parseInt16 (substring 2 2 sixDigitHex);
               parseInt16 (substring 4 2 sixDigitHex)] t_rgb None)
  | None =>
      let failure := Error ("Color " ++ input ++ " is not a valid color") in
      match regex_match re_functional input with
      | None => failure
      | Some groups =>
          match capture 1 groups, capture 2 groups with
          | Some ty, Some args =>
              match isColorType ty with
              | Some t =>
                  if nonempty args then
                    let channels := map parseNumber (tokens args) in
                    if (List.length channels =? 3)%nat || (List.length channels =? 4)%nat
                    then Ok (construct t channels)
                    else failure
                  else failure
              | None => failure
              end
          | _, _ => failure
          end
      end
  end
  end.

End Color.

(** ** Vocabulary of the properties *)

Module Props.

Import JS.
Local Open Scope string_scope.
Local Open Scope float_scope.

(** The number [n] as a double (exact for the small naturals used
    below). *)
Definition of_nat (n : nat) : float := of_uint63 (Uint63.of_Z (Z.of_nat n)).


(** [|a - b| <= k], false when either side is [NaN]. *)
Definition within (k a b : float) : bool := abs (a - b) <=? k.






(** RGB to X and back, for the three spaces of the round-trip claim. *)
Definition via_hsl (c : Color) : Color := Color.prototype.rgb (Color.prototype.hsl c).
Definition via_hsv (c : Color) : Color := Color.prototype.rgb (Color.prototype.hsv c).
Definition via_hwb (c : Color) : Color := Color.prototype.rgb (Color.prototype.hwb c).

(** The three channels of [c'] are within [k] of [r], [g], [b]. *)
Definition channels_within (k : float) (c' : Color) (r g b : float) : bool :=
  within k (Color.ch c' 0) r && within k (Color.ch c' 1) g && within k (Color.ch c' 2) b.



(** The CMYK to RGB conversion as the specification words it: every
    stored channel divided by 100. *)
Definition cmyk_to_rgb_spec (c m y k : float) : Color :=
  Color.rgb (255 * (1 - c / 100) * (1 - k / 100))
            (255 * (1 - m / 100) * (1 - k / 100))
            (255 * (1 - y / 100) * (1 - k / 100)).







(** *** The accepted strings, without the matcher *)


(** [w] is a prefix of [s] up to the case of ASCII letters. *)
Fixpoint prefix_i (w s : string) : bool :=
  match w, s with
  | EmptyString, _ => true
  | String a w', String b s' => Ascii.eqb (fold_case b) (fold_case a) && prefix_i w' s'
  | String _ _, EmptyString => false
  end.



Fixpoint all_hex (s : string) : bool :=
  match s with
  | EmptyString => true
  | String c s' => is_hex_digit c && all_hex s'
  end.

(** The digits of [#] followed by exactly [n] hexadecimal digits. *)
Definition hex_body (n : nat) (input : string) : option string :=
  match input with
  | String c body =>
      if Ascii.eqb "#" c && (String.length body =? n)%nat && all_hex body
      then Some body else None
  | EmptyString => None
  end.

(** The alternatives of the functional pattern in the order in which the
    matcher tries them. *)
Definition names_in_order : list string :=
  ["rgba"; "rgb"; "hsla"; "hsl"; "hsva"; "hsv"; "hwba"; "hwb"; "cmyk"].









(** The message of the error. *)
Definition invalid (input : string) : string :=
  "Color " ++ input ++ " is not a valid color".




End Props.

(** ** Properties of the library *)

Import JS Props.
Local Open Scope string_scope.
Local Open Scope float_scope.

(** *** Enumeration helpers *)



(** *** Space tags of the conversions *)

Lemma new_type chs ty a : type (Color.new chs ty a) = ty.
Proof. reflexivity. Qed.





(** *** C5: manipulators keep the space tag *)



(** On a negative hue it pays one unit of fuel for one addition. *)
Lemma rotate_while_step (fuel : nat) (h : float) :
  (h <? 0) = true ->
  Color.prototype.rotate_while (S fuel) h = Color.prototype.rotate_while fuel (h + 360).
Proof. intros H. cbn. now rewrite H. Qed.

(** The two rotations of the test suite return, the second after one
    round of the loop. *)
Lemma rotate_examples :
  option_map Color.prototype.string (Color.prototype.rotate 1 (Color.hsl 60 20 20) 180)
    = Some "hsl(240, 20%, 20%)" /\
  option_map Color.prototype.string (Color.prototype.rotate 2 (Color.hsl 60 20 20) (-90))
    = Some "hsl(330, 20%, 20%)".
Proof. split; vm_compute; reflexivity. Qed.

(** Where [hue + 360] rounds back to [hue] the loop never ends: no
    amount of fuel makes [rotate] return. *)
Lemma rotate_diverges (fuel : nat) :
  Color.prototype.rotate fuel (Color.hsl 0 50 50) (-1e300) = None.
Proof.
  unfold Color.prototype.rotate.
  replace (Color.ch (Color.prototype.hsl (Color.hsl 0 50 50)) 0 + -1e300) with (-1e300)
    by (vm_compute; reflexivity).
  assert (H : Color.prototype.rotate_while fuel (-1e300) = None).
  { induction fuel as [|n IH]; [reflexivity|].
    rewrite rotate_while_step by (vm_compute; reflexivity).
    replace (-1e300 + 360) with (-1e300) by (vm_compute; reflexivity).
    exact IH. }
  now rewrite H.
Qed.

(** *** C6: the chained example *)

(** C6.  [rgb(150,10,240).setGreen(100).grayscale().lighten(0.6)]
    prints as [rgb(260, 260, 260)]: the channel 260 is neither clamped nor
    rounded away. *)
Theorem chain_prints_260 :
  Color.prototype.string
    (Color.prototype.lighten
       (Color.prototype.grayscale (Color.prototype.setGreen (Color.rgb 150 10 240) 100))
       0.6)
  = "rgb(260, 260, 260)".
Proof. vm_compute. reflexivity. Qed.

(** *** C7: the formatter *)

(** The pattern of every space, as the formatter writes it: eight of the
    nine follow the specification, and [hsla] prints its lightness
    without the percent sign. *)
Lemma string_patterns (c : Color) :
  let ch i := show (nth_error (channels c) i) in
  let a := number_to_string (transparency c) in
  Color.prototype.string c =
  match type c with
  | t_cmyk => "cmyk(" ++ ch 0%nat ++ "%, " ++ ch 1%nat ++ "%, " ++ ch 2%nat ++ "%, " ++ ch 3%nat ++ "%)"
  | t_hsl => "hsl(" ++ ch 0%nat ++ ", " ++ ch 1%nat ++ "%, " ++ ch 2%nat ++ "%)"
  | t_hsla => "hsla(" ++ ch 0%nat ++ ", " ++ ch 1%nat ++ "%, " ++ ch 2%nat ++ ", " ++ a ++ ")"
  | t_hsv => "hsv(" ++ ch 0%nat ++ ", " ++ ch 1%nat ++ "%, " ++ ch 2%nat ++ "%)"
  | t_hsva => "hsva(" ++ ch 0%nat ++ ", " ++ ch 1%nat ++ "%, " ++ ch 2%nat ++ "%, " ++ a ++ ")"
  | t_hwb => "hwb(" ++ ch 0%nat ++ ", " ++ ch 1%nat ++ "%, " ++ ch 2%nat ++ "%)"
  | t_hwba => "hwba(" ++ ch 0%nat ++ ", " ++ ch 1%nat ++ "%, " ++ ch 2%nat ++ "%, " ++ a ++ ")"
  | t_rgb => "rgb(" ++ ch 0%nat ++ ", " ++ ch 1%nat ++ ", " ++ ch 2%nat ++ ")"
  | t_rgba => "rgba(" ++ ch 0%nat ++ ", " ++ ch 1%nat ++ ", " ++ ch 2%nat ++ ", " ++ a ++ ")"
  end.
Proof. reflexivity. Qed.

(** C7.  [Color.hsla(173, 76, 89, 0.5).string()] is
    [hsla(173, 76%, 89, 0.5)]: the lightness has no trailing percent sign,
    where the claim asks for [hsla(173, 76%, 89%, 0.5)]; the sibling
    [hsl], [hsva] and [hwba] print theirs. *)
Theorem hsla_prints_lightness_without_percent :
  Color.prototype.string (Color.hsla 173 76 89 (Some 0.5)) = "hsla(173, 76%, 89, 0.5)" /\
  Color.prototype.string (Color.hsl 173 76 89) = "hsl(173, 76%, 89%)" /\
  Color.prototype.string (Color.hsva 173 76 89 (Some 0.5)) = "hsva(173, 76%, 89%, 0.5)" /\
  Color.prototype.string (Color.hwba 173 6 9 (Some 0.5)) = "hwba(173, 6%, 9%, 0.5)".
Proof. repeat apply conj; vm_compute; reflexivity. Qed.

(** *** C10: an alpha of zero *)

(** C10.  An alpha-carrying constructor called with alpha [0] builds a
    colour whose [alpha()] is [1]: [alpha || 1] takes the default for every
    falsy alpha. *)
Theorem alpha_zero_becomes_one (x y z : float) :
  Color.prototype.alpha (Color.rgba x y z (Some 0)) = 1 /\
  Color.prototype.alpha (Color.hsla x y z (Some 0)) = 1 /\
  Color.prototype.alpha (Color.hsva x y z (Some 0)) = 1 /\
  Color.prototype.alpha (Color.hwba x y z (Some 0)) = 1.
Proof.
  repeat apply conj; try reflexivity.
  unfold Color.hwba. destruct (100 <? y + z); reflexivity.
Qed.

(** The same through the parser, and for the other falsy numbers. *)
Lemma alpha_zero_examples :
  Color.string "rgba(10, 20, 30, 0)"
    = Color.Ok (mkColor [10; 20; 30] t_rgba 1) /\
  Color.prototype.string (Color.rgba 10 20 30 (Some 0)) = "rgba(10, 20, 30, 1)" /\
  Color.prototype.alpha (Color.rgba 10 20 30 (Some (-0))) = 1 /\
  Color.prototype.alpha (Color.rgba 10 20 30 (Some nan)) = 1 /\
  Color.prototype.alpha (Color.rgba 10 20 30 None) = 1 /\
  Color.prototype.alpha (Color.rgba 10 20 30 (Some 0.5)) = 0.5.
Proof. repeat apply conj; vm_compute; reflexivity. Qed.

(** *** C2: CMYK to RGB *)

(** C2.  On [cmyk(0, 0, 0, 100)] (pure black) the code returns white,
    [rgb(255, 255, 255)], because it reads the black channel from
    [channels[2]], the yellow; on [cmyk(100, 0, 0, 0)] it returns
    [rgb(184, 255, 255)], because it divides the cyan by 360.  The formula
    of the claim gives [rgb(0, 0, 0)] and [rgb(0, 255, 255)]. *)
Theorem cmyk_to_rgb_misreads_channels :
  Color.prototype.rgb (Color.cmyk 0 0 0 100) = mkColor [255; 255; 255] t_rgb 1 /\
  cmyk_to_rgb_spec 0 0 0 100 = mkColor [0; 0; 0] t_rgb 1 /\
  Color.prototype.rgb (Color.cmyk 100 0 0 0) = mkColor [184; 255; 255] t_rgb 1 /\
  cmyk_to_rgb_spec 100 0 0 0 = mkColor [0; 255; 255] t_rgb 1.
Proof. repeat apply conj; vm_compute; reflexivity. Qed.

(** The forward conversion is the usual one, so a trip through CMYK
    does not come back: the colour of the README does not survive. *)
Lemma cmyk_round_trip_example :
  Color.prototype.cmyk (Color.rgb 35 64 115) = mkColor [70; 44; 0; 55] t_cmyk 1 /\
  Color.prototype.rgb (Color.prototype.cmyk (Color.rgb 35 64 115))
    = mkColor [205; 143; 255] t_rgb 1 /\
  cmyk_to_rgb_spec 70 44 0 55 = mkColor [34; 64; 115] t_rgb 1.
Proof. repeat apply conj; vm_compute; reflexivity. Qed.

(** *** C3: mixing a colour with itself *)


(** Outside RGB the result also goes through two rounding conversions:
    an HSL colour mixed with itself changes its saturation. *)
Lemma mix_self_hsl_example :
  let c := Color.hsl 173 76 89 in
  Color.prototype.mix c c None = mkColor [173; 75; 89] t_hsl 1.
Proof. vm_compute. reflexivity. Qed.






(** *** C4: HWB normalisation *)







(** *** C1: RGB to X and back *)


(** The colour of the README, [rgb(35, 64, 115)], comes back two away. *)
Lemma hsl_round_trip_off_by_two :
  Color.prototype.hsl (Color.rgb 35 64 115) = mkColor [218; 53; 29] t_hsl 1 /\
  via_hsl (Color.rgb 35 64 115) = mkColor [35; 63; 113] t_rgb 1.
Proof. split; vm_compute; reflexivity. Qed.

(** The HSV and HWB cases of [rgb()] pass their results, which lie in
    [0, 1], to [Color.rgb] without the factor 255 that the HSL case
    applies: white comes back as [rgb(1, 1, 1)]. *)
Lemma hsv_hwb_round_trip_unscaled :
  via_hsv (Color.rgb 255 255 255) = mkColor [1; 1; 1] t_rgb 1 /\
  via_hwb (Color.rgb 255 255 255) = mkColor [1; 1; 1] t_rgb 1 /\
  via_hsv (Color.rgb 35 64 115) = mkColor [0; 0; 0] t_rgb 1.
Proof. repeat apply conj; vm_compute; reflexivity. Qed.

(** Away from the three-digit colours the HSL trip can lose more:
    [rgb(2, 228, 230)] comes back five away in the green channel. *)
Lemma hsl_round_trip_off_by_five :
  via_hsl (Color.rgb 2 228 230) = mkColor [2; 223; 227] t_rgb 1 /\
  channels_within 4 (via_hsl (Color.rgb 2 228 230)) 2 228 230 = false.
Proof. split; vm_compute; reflexivity. Qed.








(** *** The value of a double *)












(** *** [Math.round] and [Math.floor] as integer arithmetic *)









(** *** The hue range *)








Lemma Math_round_nan : Math_round nan = nan.
Proof. reflexivity. Qed.









(** *** C8: the hue after [rotate] *)












(** *** C9: the string parser *)

Section Parser.

Local Open Scope nat_scope.



Lemma substring_all (s : string) : substring 0 (String.length s) s = s.
Proof. induction s as [|c s IH]; cbn; [reflexivity|now rewrite IH]. Qed.


















Lemma prefix_i_length (w s : string) :
  prefix_i w s = true ->
  String.length (substring 0 (String.length w) s) = String.length w.
Proof.
  revert s. induction w as [|a w IH]; intros s H.
  - now destruct s.
  - destruct s as [|b s']; cbn in H |- *; [discriminate H|].
    apply andb_prop in H. destruct H as [_ H]. now rewrite (IH s' H).
Qed.









Lemma In_names (w : string) :
  In w names_in_order -> exists t, w = Color.type_name t.
Proof.
  cbn. intros H.
  repeat (destruct H as [<-|H];
          [first [now exists t_rgba | now exists t_rgb | now exists t_hsla
                 | now exists t_hsl | now exists t_hsva | now exists t_hsv
                 | now exists t_hwba | now exists t_hwb | now exists t_cmyk]|]).
  destruct H.
Qed.







Lemma hex_body_nonempty (n : nat) (input body : string) :
  hex_body (S n) input = Some body -> nonempty body = true.
Proof.
  unfold hex_body. destruct input as [|c b]; [discriminate|].
  destruct (Ascii.eqb "#" c); [|discriminate].
  destruct b as [|c' b']; [discriminate|].
  cbn [andb]. destruct (_ && _); [|discriminate]. now intros [= <-].
Qed.



(** The tokens need not be numbers, the name must be in lower case, and
    [cmyk] takes three arguments as well as four. *)
Lemma parser_examples :
  Color.string "rgb(a,b,c)" = Color.Ok (mkColor [nan; nan; nan] t_rgb 1%float) /\
  Color.string "RGB(1,2,3)" = Color.Error (invalid "RGB(1,2,3)") /\
  Color.string "cmyk(1 2 3)" = Color.Ok (mkColor [1; 2; 3; nan]%float t_cmyk 1%float) /\
  Color.string "rgb(1,2)" = Color.Error (invalid "rgb(1,2)") /\
  Color.string "#1af" = Color.Ok (mkColor [17; 170; 255]%float t_rgb 1%float) /\
  Color.string "#2320A0" = Color.Ok (mkColor [35; 32; 160]%float t_rgb 1%float) /\
  Color.string "" = Color.Error (invalid "").
Proof. repeat apply conj; vm_compute; reflexivity. Qed.

End Parser.
